(** * Traceix SDK: a shallow embedding of [traceix_sdk.py]

    The client is a class whose methods read the process environment, open
    files and call [requests.post].  The embedding threads an explicit
    [world] (environment, filesystem, transport, log of posted requests,
    opened handles) through an exception monad, and each method is written
    in the order of the statements of its Python body. *)

From Stdlib Require Import ZArith String Ascii List.
From stdpp Require Import base option strings gmap.

Local Open Scope string_scope.
Local Open Scope list_scope.
Set Warnings "-register-all".

(** ** Python values *)

(** The values that travel through the SDK: JSON documents decoded by
    [Response.json()], the arguments placed in JSON payloads, and the tuple
    built by [full_upload]. *)
Inductive pyval : Type :=
  | PyNone
  | PyBool (b : bool)
  | PyInt (z : Z)
  | PyStr (s : string)
  | PyList (items : list pyval)
  | PyTuple (items : list pyval)
  | PyDict (entries : list (string * pyval)).

(** [x is None] *)
Definition is_none (v : pyval) : bool :=
  match v with
  | PyNone => true
  | _ => false
  end.

(** [x == "literal"] for a string literal on the right: only a [str] with
    the same characters compares equal. *)
Definition py_eq_str (v : pyval) (lit : string) : bool :=
  match v with
  | PyStr s => String.eqb s lit
  | _ => false
  end.

(** ** Exceptions *)

Inductive exn : Type :=
  | NoApiKey (msg : string)
  | InvalidSearchType (msg : string)
  | NoUuidProvided (msg : string)
  | OSError (filename : string)        (* raised by [open] *)
  | JSONDecodeError                    (* raised by [Response.json()] *)
  | TransportError (what : string).    (* anything [requests.post] raises *)

Inductive result (A : Type) : Type :=
  | Ok (a : A)
  | Raise (e : exn).
Arguments Ok {A} a.
Arguments Raise {A} e.

(** ** Requests and responses *)

(** An open binary file handle, as returned by [open(filename, "rb")]. *)
Record file_handle : Type := mkHandle {
  handle_path : string;
  handle_data : list Byte.byte
}.

(** One entry of the [files=] mapping: field name, then the tuple
    [(filename, fh, content_type)]. *)
Record file_part : Type := mkPart {
  part_field : string;
  part_filename : string;
  part_handle : file_handle;
  part_content_type : string
}.

(** What is handed to [requests.post] besides the url and the headers. *)
Inductive payload : Type :=
  | NoBody                              (* neither [json=] nor [files=] *)
  | JsonBody (data : pyval)             (* [json=post_data] *)
  | FilesBody (files : list file_part). (* [files=post_data] *)

Record request : Type := mkRequest {
  req_url : string;
  req_headers : gmap string string;
  req_payload : payload
}.

(** A response object.  [resp_json] is what [req.json()] does on it: the
    decoded document, or [None] when the decoder raises. *)
Record response : Type := mkResponse {
  status_code : Z;
  resp_json : option pyval
}.

Inductive net_outcome : Type :=
  | NetReturn (r : response)
  | NetRaise (e : exn).

(** ** The world outside the SDK *)

Record world : Type := mkWorld {
  environ : gmap string string;               (* [os.environ] *)
  fs : gmap string (list Byte.byte);          (* files [open] can read *)
  host_platform : string;                     (* [platform.platform()] *)
  python_version : string;                    (* [platform.python_version()] *)
  transport : list request -> request -> net_outcome;
                                              (* [requests.post], given the calls made so far *)
  posted : list request;                      (* calls made to [requests.post] *)
  opened : list file_handle                   (* handles returned by [open], in order *)
}.

Definition log_post (r : request) (w : world) : world :=
  {| environ := environ w; fs := fs w;
     host_platform := host_platform w; python_version := python_version w;
     transport := transport w;
     posted := posted w ++ [r];
     opened := opened w |}.

Definition log_open (h : file_handle) (w : world) : world :=
  {| environ := environ w; fs := fs w;
     host_platform := host_platform w; python_version := python_version w;
     transport := transport w;
     posted := posted w;
     opened := opened w ++ [h] |}.

(** ** The monad of method bodies *)

Definition M (A : Type) : Type := world -> result A * world.

Definition ret {A} (a : A) : M A := fun w => (Ok a, w).

Definition raise {A} (e : exn) : M A := fun w => (Raise e, w).

Definition bind {A B} (m : M A) (k : A -> M B) : M B :=
  fun w =>
    match m w with
    | (Ok a, w') => k a w'
    | (Raise e, w') => (Raise e, w')
    end.

(** [try: m  except: h] with a bare [except], which catches everything. *)
Definition try_except {A} (m : M A) (h : M A) : M A :=
  fun w =>
    match m w with
    | (Ok a, w') => (Ok a, w')
    | (Raise _, w') => h w'
    end.

Declare Scope py_scope.
Delimit Scope py_scope with py.
Notation "x <- m ; k" := (bind m (fun x => k))
  (at level 20, m at level 100, k at level 200, only parsing) : py_scope.
Local Open Scope py_scope.

(** *** Primitive effects *)

(** [os.getenv(name)] and [os.environ.get(name)] *)
Definition os_getenv (name : string) : M (option string) :=
  fun w => (Ok (environ w !! name), w).

(** [platform.platform()] and [platform.python_version()] *)
Definition platform_platform : M string := fun w => (Ok (host_platform w), w).
Definition platform_python_version : M string := fun w => (Ok (python_version w), w).

(** [open(filename, "rb")] *)
Definition py_open (filename : string) : M file_handle :=
  fun w =>
    match fs w !! filename with
    | Some data =>
        let fh := mkHandle filename data in (Ok fh, log_open fh w)
    | None => (Raise (OSError filename), w)
    end.

(** [requests.post(url, headers=..., json=... / files=...)] *)
Definition requests_post (url : string) (headers : gmap string string)
    (body : payload) : M response :=
  fun w =>
    let r := mkRequest url headers body in
    match transport w (posted w) r with
    | NetReturn resp => (Ok resp, log_post r w)
    | NetRaise e => (Raise e, log_post r w)
    end.

(** [req.json()] *)
Definition response_json (req : response) : M pyval :=
  match resp_json req with
  | Some v => ret v
  | None => raise JSONDecodeError
  end.

(** ** class TraceixSdk *)

Record TraceixSdk : Type := mkSdk {
  api_key : string;
  base_url : string
}.

Definition sdk_version : string := "0.0.0.1".

(** [__init__(self, api_key=None)] *)
Definition init (api_key_arg : option string) : M TraceixSdk :=
  key <- match api_key_arg with
         | None => os_getenv "TRACEIX_API_KEY"
         | Some k => ret (Some k)
         end ;
  match key with
  | None => raise (NoApiKey "You did not provide an API key")
  | Some k =>
      if String.eqb k "" then raise (NoApiKey "You did not provide an API key")
      else ret (mkSdk k "https://ai.perkinsfund.org")
  end.

(** [__build_user_agent(self)] *)
Definition build_user_agent (self : TraceixSdk) : M string :=
  flag <- os_getenv "TRACEIX_DISABLE_TELEMETRY" ;
  let telemetry_disabled :=
    match flag with
    | Some v => String.eqb v "1"
    | None => false
    end in
  let user_agent := "Traceix/" +:+ sdk_version in
  if negb telemetry_disabled then
    plat <- platform_platform ;
    ver <- platform_python_version ;
    ret (user_agent +:+ " (" +:+ plat +:+ " v" +:+ ver +:+ ")")
  else ret user_agent.

(** [__build_headers(self)] *)
Definition build_headers (self : TraceixSdk) : M (gmap string string) :=
  ua <- build_user_agent self ;
  ret (<["user-agent" := ua]> (<["x-api-key" := api_key self]> ∅)).

(** [__build_url(self, path)] *)
Definition build_url (self : TraceixSdk) (path : string) : string :=
  base_url self +:+ "/" +:+ path.

(** [__build_file_data(filename)] *)
Definition build_file_data (filename : string) : M (list file_part) :=
  fh <- py_open filename ;
  ret [mkPart "file" filename fh "application/octet-stream"].

(** The tail shared by every method body:
<<
    try:    req = requests.post(url, headers=headers, ...)
    except: req = None
    if req is not None: return req.json()
    else:               return None
>> *)
Definition post_and_decode (url : string) (headers : gmap string string)
    (body : payload) : M pyval :=
  req <- try_except (r <- requests_post url headers body ; ret (Some r))
                    (ret None) ;
  match req with
  | Some r => response_json r
  | None => ret PyNone
  end.

(** [ai_prediction(self, filename)] *)
Definition ai_prediction (self : TraceixSdk) (filename : string) : M pyval :=
  let url := build_url self "/api/traceix/v1/upload" in
  headers <- build_headers self ;
  post_data <- build_file_data filename ;
  post_and_decode url headers (FilesBody post_data).

(** [check_status(self, uuid)] *)
Definition check_status (self : TraceixSdk) (uuid : pyval) : M pyval :=
  if is_none uuid then
    raise (NoUuidProvided "You did not provide a UUID required by the endpoint")
  else
    let url := build_url self "/api/v1/traceix/status" in
    headers <- build_headers self ;
    let post_data := PyDict [("uuid", uuid)] in
    post_and_decode url headers (JsonBody post_data).

(** [kwargs.get(key, default)] *)
Definition kwargs_get (kwargs : gmap string pyval) (key : string)
    (default : pyval) : pyval :=
  match kwargs !! key with
  | Some v => v
  | None => default
  end.

(** [hash_search(self, file_hash, **kwargs)] *)
Definition hash_search (self : TraceixSdk) (file_hash : pyval)
    (kwargs : gmap string pyval) : M pyval :=
  let search_type := kwargs_get kwargs "search_type" (PyStr "capa") in
  let url :=
    if py_eq_str search_type "capa" then
      Some (build_url self "/api/traceix/v1/capa/search")
    else if py_eq_str search_type "exif" then
      Some (build_url self "/api/traceix/v1/exif/search")
    else None in
  match url with
  | None => raise (InvalidSearchType "Search must be of type capa or exif")
  | Some url =>
      headers <- build_headers self ;
      let post_data := PyDict [("sha256", file_hash)] in
      let headers := <["content-type" := "application/json"]> headers in
      post_and_decode url headers (JsonBody post_data)
  end.

(** [capa_extraction(self, filename)] *)
Definition capa_extraction (self : TraceixSdk) (filename : string) : M pyval :=
  let url := build_url self "/api/traceix/v1/capa" in
  headers <- build_headers self ;
  post_data <- build_file_data filename ;
  post_and_decode url headers (FilesBody post_data).

(** [exif_extraction(self, filename)] *)
Definition exif_extraction (self : TraceixSdk) (filename : string) : M pyval :=
  let url := build_url self "/api/traceix/v1/exif" in
  headers <- build_headers self ;
  post_data <- build_file_data filename ;
  post_and_decode url headers (FilesBody post_data).

(** [full_upload(self, filename)] *)
Definition full_upload (self : TraceixSdk) (filename : string) : M pyval :=
  ai_data <- ai_prediction self filename ;
  capa_status <- capa_extraction self filename ;
  exif_data <- exif_extraction self filename ;
  ret (PyTuple [ai_data; capa_status; exif_data]).

(** [list_all_ipfs_datasets(self)] *)
Definition list_all_ipfs_datasets (self : TraceixSdk) : M pyval :=
  let url := build_url self "/api/traceix/v1/ipfs/listall" in
  headers <- build_headers self ;
  post_and_decode url headers NoBody.

(** [get_public_ipfs_dataset(self, cid)] *)
Definition get_public_ipfs_dataset (self : TraceixSdk) (cid : pyval) : M pyval :=
  let url := build_url self "/api/traceix/v1/ipfs/search" in
  headers <- build_headers self ;
  let post_data := PyDict [("cid", cid)] in
  post_and_decode url headers (JsonBody post_data).

(** [search_ipfs_dataset_by_hash(self, file_hash)] *)
Definition search_ipfs_dataset_by_hash (self : TraceixSdk) (file_hash : pyval)
    : M pyval :=
  let url := build_url self "/api/traceix/v1/ipfs/find" in
  headers <- build_headers self ;
  let post_data := PyDict [("sha_hash", file_hash)] in
  post_and_decode url headers (JsonBody post_data).

(** ** Running a method *)

(** The value (or exception) a method ends with, and the world it leaves. *)
Definition outcome {A} (m : M A) (w : world) : result A := fst (m w).
Definition after {A} (m : M A) (w : world) : world := snd (m w).

(** The calls to [requests.post] made by [m] when started in [w]. *)
Definition new_posts {A} (m : M A) (w : world) : list request :=
  drop (length (posted w)) (posted (after m w)).

(** The identifier string and the header mapping the private builders
    produce in [w]; both only read the world. *)
Definition user_agent_in (self : TraceixSdk) (w : world) : string :=
  match outcome (build_user_agent self) w with
  | Ok ua => ua
  | Raise _ => ""
  end.

Definition headers_in (self : TraceixSdk) (w : world) : gmap string string :=
  match outcome (build_headers self) w with
  | Ok h => h
  | Raise _ => ∅
  end.

(** What the shared tail of a method makes of the transport's answer. *)
Definition late_result (o : net_outcome) : result pyval :=
  match o with
  | NetRaise _ => Ok PyNone
  | NetReturn resp =>
      match resp_json resp with
      | Some v => Ok v
      | None => Raise JSONDecodeError
      end
  end.

(** The single upload part built for [filename] holding [data]. *)
Definition upload_part (filename : string) (data : list Byte.byte) : file_part :=
  mkPart "file" filename (mkHandle filename data) "application/octet-stream".

(** *** Worlds used in the examples *)

Definition sample_file : string := "/tmp/sample.bin".

Definition sample_fs : gmap string (list Byte.byte) :=
  {[ sample_file := [Byte.x4d; Byte.x5a] ]}.

Definition make_world (env : gmap string string)
    (net : list request -> request -> net_outcome) : world :=
  {| environ := env; fs := sample_fs;
     host_platform := "Linux-6.1-x86_64"; python_version := "3.11.4";
     transport := net; posted := []; opened := [] |}.

(** The server answers every call with a JSON document. *)
Definition net_answers : list request -> request -> net_outcome :=
  fun _ _ => NetReturn (mkResponse 200 (Some (PyDict [("status", PyStr "ok")]))).

(** The server answers every call with a body that is not JSON. *)
Definition net_garbled : list request -> request -> net_outcome :=
  fun _ _ => NetReturn (mkResponse 502 None).

(** Every call fails to connect. *)
Definition net_down : list request -> request -> net_outcome :=
  fun _ _ => NetRaise (TransportError "ConnectionError").

Definition sdk0 : TraceixSdk := mkSdk "secret" "https://ai.perkinsfund.org".

(** ** Notions used in the statements *)

(** The body shared, word for word, by [ai_prediction], [capa_extraction]
    and [exif_extraction]; they differ in the path only. *)
Definition file_call (self : TraceixSdk) (path filename : string) : M pyval :=
  headers <- build_headers self ;
  post_data <- build_file_data filename ;
  post_and_decode (build_url self path) headers (FilesBody post_data).

(** The request a file method posts for a readable file. *)
Definition file_request (self : TraceixSdk) (w : world) (path filename : string)
    (data : list Byte.byte) : request :=
  mkRequest (build_url self path) (headers_in self w)
            (FilesBody [upload_part filename data]).

(** The platform and runtime details appended when telemetry is on. *)
Definition telemetry_details (w : world) : string :=
  " (" +:+ host_platform w +:+ " v" +:+ python_version w +:+ ")".

(** The request [check_status] posts once its guard has been passed. *)
Definition status_request (self : TraceixSdk) (w : world) (uuid : pyval)
    : request :=
  mkRequest (build_url self "/api/v1/traceix/status") (headers_in self w)
            (JsonBody (PyDict [("uuid", uuid)])).

(** The request [hash_search] posts for a recognised search type. *)
Definition hash_request (self : TraceixSdk) (w : world) (path : string)
    (file_hash : pyval) : request :=
  mkRequest (build_url self path)
            (<["content-type" := "application/json"]> (headers_in self w))
            (JsonBody (PyDict [("sha256", file_hash)])).

(** [w'] is [w] after some method calls: only the two logs may differ. *)
Definition same_host (w w' : world) : Prop :=
  environ w' = environ w /\ fs w' = fs w
  /\ host_platform w' = host_platform w
  /\ python_version w' = python_version w
  /\ transport w' = transport w.

(** A call of one of the nine public methods, with its arguments. *)
Inductive call : Type :=
  | FullUpload (filename : string)
  | AiPrediction (filename : string)
  | CheckStatus (uuid : pyval)
  | HashSearch (file_hash : pyval) (kwargs : gmap string pyval)
  | CapaExtraction (filename : string)
  | ExifExtraction (filename : string)
  | ListAllIpfsDatasets
  | GetPublicIpfsDataset (cid : pyval)
  | SearchIpfsDatasetByHash (file_hash : pyval).

Definition invoke (self : TraceixSdk) (c : call) : M pyval :=
  match c with
  | FullUpload filename => full_upload self filename
  | AiPrediction filename => ai_prediction self filename
  | CheckStatus uuid => check_status self uuid
  | HashSearch file_hash kwargs => hash_search self file_hash kwargs
  | CapaExtraction filename => capa_extraction self filename
  | ExifExtraction filename => exif_extraction self filename
  | ListAllIpfsDatasets => list_all_ipfs_datasets self
  | GetPublicIpfsDataset cid => get_public_ipfs_dataset self cid
  | SearchIpfsDatasetByHash file_hash => search_ipfs_dataset_by_hash self file_hash
  end.

(** The url has two separators between the base address and [tail]. *)
Definition doubled_separator (self : TraceixSdk) (r : request) : Prop :=
  exists tail,
    req_url r = build_url self ("/" +:+ tail)
    /\ req_url r = base_url self +:+ "//" +:+ tail
    /\ req_url r <> base_url self +:+ "/" +:+ tail.

(** Every call [m] makes to [requests.post] satisfies [P], and [m] only
    appends to the log. *)
Definition posts_only (P : request -> Prop) {A} (m : M A) : Prop :=
  forall w, exists rs,
    posted (after m w) = posted w ++ rs /\ Forall P rs.

(** Every public method, called with arguments that pass its pre-call steps
    (the [uuid] and [search_type] guards, and [open] for the upload
    methods), ends with [single]; [full_upload] ends with [triple]. *)
Definition every_operation_ends (self : TraceixSdk) (w : world)
    (single triple : result pyval) : Prop :=
  (forall fn, fs w !! fn <> None -> outcome (ai_prediction self fn) w = single)
  /\ (forall uuid, uuid <> PyNone -> outcome (check_status self uuid) w = single)
  /\ (forall h kwargs,
        kwargs_get kwargs "search_type" (PyStr "capa") = PyStr "capa" \/
        kwargs_get kwargs "search_type" (PyStr "capa") = PyStr "exif" ->
        outcome (hash_search self h kwargs) w = single)
  /\ (forall fn, fs w !! fn <> None -> outcome (capa_extraction self fn) w = single)
  /\ (forall fn, fs w !! fn <> None -> outcome (exif_extraction self fn) w = single)
  /\ outcome (list_all_ipfs_datasets self) w = single
  /\ (forall cid, outcome (get_public_ipfs_dataset self cid) w = single)
  /\ (forall h, outcome (search_ipfs_dataset_by_hash self h) w = single)
  /\ (forall fn, fs w !! fn <> None -> outcome (full_upload self fn) w = triple).

(** What [full_upload] makes of three calls that each end with [res]. *)
Definition thrice (res : result pyval) : result pyval :=
  match res with
  | Ok v => Ok (PyTuple [v; v; v])
  | Raise e => Raise e
  end.

(** *** Notions for the whole-client properties *)

(** The most calls to [requests.post], and to [open], a method can make. *)
Definition max_posts (c : call) : nat :=
  match c with
  | FullUpload _ => 3
  | _ => 1
  end.

Definition max_opens (c : call) : nat :=
  match c with
  | FullUpload _ => 3
  | AiPrediction _ | CapaExtraction _ | ExifExtraction _ => 1
  | _ => 0
  end.

(** Started in any world that is [w0] up to its two logs, [m] leaves such a
    world again, appends [rs] to the posted log and [hs] to the opened
    handles, with every request of [rs] in [P], at most [np] requests and
    [nh] handles, and a returned value in [Q]. *)
Definition bounded (w0 : world) (P : request -> Prop) (np nh : nat)
    {A} (Q : A -> Prop) (m : M A) : Prop :=
  forall w, same_host w0 w ->
    exists rs hs,
      same_host w0 (after m w)
      /\ posted (after m w) = posted w ++ rs
      /\ opened (after m w) = opened w ++ hs
      /\ Forall P rs
      /\ length rs <= np
      /\ length hs <= nh
      /\ (forall a, outcome m w = Ok a -> Q a).

(** The headers [c] sends when called in [w]: the standard two, and for
    [hash_search] the content type as well. *)
Definition sent_headers (self : TraceixSdk) (w : world) (c : call)
    : gmap string string :=
  match c with
  | HashSearch _ _ => <["content-type" := "application/json"]> (headers_in self w)
  | _ => headers_in self w
  end.

(** The request a method with a JSON payload posts. *)
Definition json_request (self : TraceixSdk) (w : world) (path key : string)
    (v : pyval) : request :=
  mkRequest (build_url self path) (headers_in self w)
            (JsonBody (PyDict [(key, v)])).

(** The server answers every call with status 500 and a JSON error body. *)
Definition net_error : list request -> request -> net_outcome :=
  fun _ _ =>
    NetReturn (mkResponse 500 (Some (PyDict [("error", PyStr "internal")]))).

(** The server's second answer is not JSON; the others are. *)
Definition net_second_garbled : list request -> request -> net_outcome :=
  fun hist _ =>
    if Nat.eqb (length hist) 1 then NetReturn (mkResponse 502 None)
    else NetReturn (mkResponse 200 (Some (PyDict [("status", PyStr "ok")]))).

(** The two headers every request starts from, written out. *)
Definition standard_headers (self : TraceixSdk) (w : world)
    : gmap string string :=
  <["user-agent" := user_agent_in self w]> (<["x-api-key" := api_key self]> ∅).

(** ** Generic facts *)

Lemma prefix_append (s t : string) : String.prefix s (s +:+ t) = true.
Proof.
  induction s as [|a s IH]; simpl.
  - now destruct t.
  - destruct (ascii_dec a a) as [_|Hne]; [exact IH | now elim Hne].
Qed.

Lemma append_inj_l (s t u : string) : s +:+ t = s +:+ u -> t = u.
Proof.
  induction s as [|a s IH]; simpl; [trivial |].
  intros [=]. now apply IH.
Qed.

Lemma drop_own_length {A} (l k : list A) : drop (length l) (l ++ k) = k.
Proof. induction l as [|x l IH]; simpl; [now destruct k | exact IH]. Qed.

(** *** The private builders *)

Lemma build_user_agent_run self w :
  build_user_agent self w = (Ok (user_agent_in self w), w).
Proof.
  unfold user_agent_in, outcome, build_user_agent, bind, os_getenv,
    platform_platform, platform_python_version, ret.
  destruct (environ w !! "TRACEIX_DISABLE_TELEMETRY") as [v|]; simpl.
  - destruct (String.eqb v "1"); reflexivity.
  - reflexivity.
Qed.

Lemma build_headers_run self w :
  build_headers self w = (Ok (headers_in self w), w).
Proof.
  unfold headers_in, outcome, build_headers, bind.
  rewrite build_user_agent_run. reflexivity.
Qed.

Lemma headers_in_eq self w :
  headers_in self w =
  <["user-agent" := user_agent_in self w]> (<["x-api-key" := api_key self]> ∅).
Proof.
  unfold headers_in, outcome, build_headers, bind.
  rewrite build_user_agent_run. reflexivity.
Qed.

Lemma headers_in_standard self w :
  headers_in self w = standard_headers self w.
Proof. apply headers_in_eq. Qed.

Lemma file_request_explicit self w tail fn data :
  file_request self w ("/" +:+ tail) fn data =
  mkRequest (base_url self +:+ "//" +:+ tail) (standard_headers self w)
    (FilesBody [mkPart "file" fn (mkHandle fn data) "application/octet-stream"]).
Proof. unfold file_request. now rewrite headers_in_standard. Qed.

Lemma hash_request_explicit self w tail h :
  hash_request self w ("/" +:+ tail) h =
  mkRequest (base_url self +:+ "//" +:+ tail)
    (<["content-type" := "application/json"]> (standard_headers self w))
    (JsonBody (PyDict [("sha256", h)])).
Proof. unfold hash_request. now rewrite headers_in_standard. Qed.

(** *** The shared tail *)

Lemma post_and_decode_run url headers body w :
  post_and_decode url headers body w =
  (late_result (transport w (posted w) (mkRequest url headers body)),
   log_post (mkRequest url headers body) w).
Proof.
  unfold post_and_decode, bind, try_except, requests_post, response_json,
    late_result, ret, raise.
  destruct (transport w (posted w) (mkRequest url headers body)) as [resp|e].
  - destruct (resp_json resp); reflexivity.
  - reflexivity.
Qed.

(** *** Methods that upload a file *)

Lemma ai_prediction_file_call self fn :
  ai_prediction self fn = file_call self "/api/traceix/v1/upload" fn.
Proof. reflexivity. Qed.

Lemma capa_extraction_file_call self fn :
  capa_extraction self fn = file_call self "/api/traceix/v1/capa" fn.
Proof. reflexivity. Qed.

Lemma exif_extraction_file_call self fn :
  exif_extraction self fn = file_call self "/api/traceix/v1/exif" fn.
Proof. reflexivity. Qed.

Lemma file_call_unreadable self path fn w :
  fs w !! fn = None ->
  file_call self path fn w = (Raise (OSError fn), w).
Proof.
  intros Hfs. unfold file_call, bind. rewrite build_headers_run.
  unfold build_file_data, bind, py_open. rewrite Hfs. reflexivity.
Qed.

Lemma file_call_readable self path fn data w :
  fs w !! fn = Some data ->
  file_call self path fn w =
  (late_result (transport w (posted w) (file_request self w path fn data)),
   log_post (file_request self w path fn data) (log_open (mkHandle fn data) w)).
Proof.
  intros Hfs. unfold file_call, bind. rewrite build_headers_run.
  unfold build_file_data, bind, py_open. rewrite Hfs. unfold ret.
  rewrite post_and_decode_run. reflexivity.
Qed.

Lemma headers_in_frame self w w' :
  environ w' = environ w ->
  host_platform w' = host_platform w ->
  python_version w' = python_version w ->
  headers_in self w' = headers_in self w.
Proof.
  intros He Hp Hv. rewrite !headers_in_eq. f_equal.
  unfold user_agent_in, outcome, build_user_agent, bind, os_getenv.
  rewrite He.
  destruct (environ w !! "TRACEIX_DISABLE_TELEMETRY") as [v|]; simpl.
  - destruct (String.eqb v "1"); simpl; [reflexivity |].
    unfold platform_platform, platform_python_version, ret; simpl.
    now rewrite Hp, Hv.
  - unfold platform_platform, platform_python_version, ret; simpl.
    now rewrite Hp, Hv.
Qed.

(** ** Construction *)

(** C5. Constructing a client with an absent ([None]) or empty credential
    argument, while the environment variable [TRACEIX_API_KEY] is unset or
    empty, raises [NoApiKey]; the constructor leaves the world untouched and
    yields no instance whatever. *)
Theorem init_missing_credential (arg : option string) (w : world) :
  arg = None \/ arg = Some "" ->
  environ w !! "TRACEIX_API_KEY" = None \/
  environ w !! "TRACEIX_API_KEY" = Some "" ->
  init arg w = (Raise (NoApiKey "You did not provide an API key"), w)
  /\ (forall self, outcome (init arg) w <> Ok self).
Proof.
  intros Harg Henv.
  assert (Hrun : init arg w =
                 (Raise (NoApiKey "You did not provide an API key"), w)).
  { unfold init, bind, os_getenv, ret, raise.
    destruct Harg as [-> | ->].
    - destruct Henv as [-> | ->]; reflexivity.
    - reflexivity. }
  split; [exact Hrun |].
  intros self. unfold outcome. rewrite Hrun. discriminate.
Qed.

Lemma init_missing_credential_witness :
  init None (make_world ∅ net_answers) =
    (Raise (NoApiKey "You did not provide an API key"),
     make_world ∅ net_answers)
  /\ (forall self, outcome (init None) (make_world ∅ net_answers) <> Ok self).
Proof.
  apply (init_missing_credential None (make_world ∅ net_answers)).
  - left; reflexivity.
  - left; vm_compute; reflexivity.
Defined.

(** C10. With a non-empty credential string as explicit argument the
    constructor succeeds and stores exactly that string, whatever the
    environment holds: run in any two worlds it builds the same client. *)
Theorem init_explicit_credential (k : string) (w1 w2 : world) :
  k <> "" ->
  exists self,
    init (Some k) w1 = (Ok self, w1)
    /\ init (Some k) w2 = (Ok self, w2)
    /\ api_key self = k.
Proof.
  intros Hk. exists (mkSdk k "https://ai.perkinsfund.org").
  unfold init, bind, ret.
  destruct (String.eqb_spec k "") as [Heq | _]; [contradiction |].
  repeat split.
Qed.

Lemma init_explicit_credential_witness :
  exists self,
    init (Some "secret") (make_world ∅ net_answers) =
      (Ok self, make_world ∅ net_answers)
    /\ init (Some "secret")
         (make_world {[ "TRACEIX_API_KEY" := "other" ]} net_down) =
      (Ok self, make_world {[ "TRACEIX_API_KEY" := "other" ]} net_down)
    /\ api_key self = "secret".
Proof.
  apply (init_explicit_credential "secret"
           (make_world ∅ net_answers)
           (make_world {[ "TRACEIX_API_KEY" := "other" ]} net_down)).
  discriminate.
Defined.

(** ** The identifier string *)

(** C7. The identifier string always starts with ["Traceix/"] followed by
    the SDK version; it is that product name followed by the platform and
    runtime details exactly when [TRACEIX_DISABLE_TELEMETRY] is not the
    literal ["1"], and the bare product name exactly when it is. *)
Theorem user_agent_shape (self : TraceixSdk) (w : world) :
  exists ua,
    build_user_agent self w = (Ok ua, w)
    /\ String.prefix ("Traceix/" +:+ sdk_version) ua = true
    /\ (environ w !! "TRACEIX_DISABLE_TELEMETRY" <> Some "1" <->
        ua = ("Traceix/" +:+ sdk_version) +:+ telemetry_details w)
    /\ (environ w !! "TRACEIX_DISABLE_TELEMETRY" = Some "1" <->
        ua = "Traceix/" +:+ sdk_version).
Proof.
  assert (Hneq : forall d, "Traceix/" +:+ sdk_version <>
                   ("Traceix/" +:+ sdk_version) +:+ (" (" +:+ d)).
  { intros d. simpl. discriminate. }
  unfold build_user_agent, bind, os_getenv, platform_platform,
    platform_python_version, ret, telemetry_details.
  destruct (environ w !! "TRACEIX_DISABLE_TELEMETRY") as [v|] eqn:Hflag.
  - destruct (String.eqb_spec v "1") as [-> | Hv]; simpl negb; cbv iota.
    + eexists; split; [reflexivity |]. split; [reflexivity |]. split.
      * split; [intros H; now elim H | intros H; now apply Hneq in H].
      * split; reflexivity.
    + eexists; split; [reflexivity |]. split; [apply prefix_append |]. split.
      * split; [reflexivity | intros _ [=]; contradiction].
      * split; [intros [=]; contradiction | intros H; symmetry in H; now apply Hneq in H].
  - simpl negb; cbv iota.
    eexists; split; [reflexivity |]. split; [apply prefix_append |]. split.
    + split; [reflexivity | discriminate].
    + split; [discriminate | intros H; symmetry in H; now apply Hneq in H].
Qed.

Example user_agent_telemetry_off :
  outcome (build_user_agent sdk0)
    (make_world {[ "TRACEIX_DISABLE_TELEMETRY" := "1" ]} net_answers) =
  Ok "Traceix/0.0.0.1".
Proof. vm_compute. reflexivity. Qed.

Example user_agent_flag_not_one :
  outcome (build_user_agent sdk0)
    (make_world {[ "TRACEIX_DISABLE_TELEMETRY" := "true" ]} net_answers) =
  Ok "Traceix/0.0.0.1 (Linux-6.1-x86_64 v3.11.4)".
Proof. vm_compute. reflexivity. Qed.

(** ** Posted requests *)

Lemma new_posts_none {A} (m : M A) w :
  posted (after m w) = posted w -> new_posts m w = [].
Proof.
  intros H. unfold new_posts. rewrite H.
  rewrite <- (app_nil_r (posted w)) at 2. apply drop_own_length.
Qed.

Lemma new_posts_app {A} (m : M A) w rs :
  posted (after m w) = posted w ++ rs -> new_posts m w = rs.
Proof. intros H. unfold new_posts. rewrite H. apply drop_own_length. Qed.

Lemma list_all_new_posts self w :
  new_posts (list_all_ipfs_datasets self) w =
    [mkRequest (build_url self "/api/traceix/v1/ipfs/listall")
               (headers_in self w) NoBody].
Proof.
  apply new_posts_app. unfold after, list_all_ipfs_datasets, bind.
  rewrite build_headers_run, post_and_decode_run. reflexivity.
Qed.

(** C9. [list_all_ipfs_datasets] makes one call to [requests.post], with the
    url and the two standard headers and neither a [json=] nor a [files=]
    argument. *)
Theorem list_all_posts_headers_only (self : TraceixSdk) (w : world) :
  new_posts (list_all_ipfs_datasets self) w =
    [mkRequest (build_url self "/api/traceix/v1/ipfs/listall")
               (headers_in self w) NoBody]
  /\ headers_in self w !! "x-api-key" = Some (api_key self)
  /\ headers_in self w !! "user-agent" = Some (user_agent_in self w)
  /\ dom (headers_in self w) = {[ "x-api-key"; "user-agent" ]}.
Proof.
  split; [| split; [| split]].
  - apply list_all_new_posts.
  - rewrite headers_in_eq. rewrite lookup_insert_ne by discriminate.
    apply lookup_insert_eq.
  - rewrite headers_in_eq. apply lookup_insert_eq.
  - rewrite headers_in_eq. rewrite !dom_insert_L. set_solver.
Qed.

(** ** File payloads *)

(** C8. When [open] fails on the given path, the filesystem error reaches
    the caller of [ai_prediction], [capa_extraction], [exif_extraction] and
    [full_upload]: none of them returns [None] in its place, and nothing has
    been posted. *)
Theorem file_error_propagates (self : TraceixSdk) (filename : string)
    (w : world) :
  fs w !! filename = None ->
  ai_prediction self filename w = (Raise (OSError filename), w)
  /\ capa_extraction self filename w = (Raise (OSError filename), w)
  /\ exif_extraction self filename w = (Raise (OSError filename), w)
  /\ full_upload self filename w = (Raise (OSError filename), w).
Proof.
  intros Hfs.
  assert (Hai : ai_prediction self filename w = (Raise (OSError filename), w)).
  { rewrite ai_prediction_file_call. now apply file_call_unreadable. }
  repeat split.
  - exact Hai.
  - rewrite capa_extraction_file_call. now apply file_call_unreadable.
  - rewrite exif_extraction_file_call. now apply file_call_unreadable.
  - unfold full_upload, bind. rewrite Hai. reflexivity.
Qed.

Lemma file_error_propagates_witness :
  ai_prediction sdk0 "/no/such/file" (make_world ∅ net_answers) =
    (Raise (OSError "/no/such/file"), make_world ∅ net_answers)
  /\ capa_extraction sdk0 "/no/such/file" (make_world ∅ net_answers) =
    (Raise (OSError "/no/such/file"), make_world ∅ net_answers)
  /\ exif_extraction sdk0 "/no/such/file" (make_world ∅ net_answers) =
    (Raise (OSError "/no/such/file"), make_world ∅ net_answers)
  /\ full_upload sdk0 "/no/such/file" (make_world ∅ net_answers) =
    (Raise (OSError "/no/such/file"), make_world ∅ net_answers).
Proof.
  apply (file_error_propagates sdk0 "/no/such/file" (make_world ∅ net_answers)).
  vm_compute. reflexivity.
Defined.

(** ** Status check *)

Lemma check_status_run self uuid w :
  is_none uuid = false ->
  check_status self uuid w =
  (late_result (transport w (posted w) (status_request self w uuid)),
   log_post (status_request self w uuid) w).
Proof.
  intros Hnone. unfold check_status. rewrite Hnone. unfold bind.
  rewrite build_headers_run, post_and_decode_run. reflexivity.
Qed.

(** C2, as stated, fails: with the empty string the guard [uuid is None] is
    passed, the request is posted with [{"uuid": ""}] and the decoded answer
    is returned; no [NoUuidProvided] is raised. *)
Lemma check_status_empty_string_is_posted :
  outcome (check_status sdk0 (PyStr "")) (make_world ∅ net_answers) =
    Ok (PyDict [("status", PyStr "ok")])
  /\ map req_payload
       (posted (after (check_status sdk0 (PyStr "")) (make_world ∅ net_answers))) =
     [JsonBody (PyDict [("uuid", PyStr "")])]
  /\ map req_url
       (posted (after (check_status sdk0 (PyStr "")) (make_world ∅ net_answers))) =
     ["https://ai.perkinsfund.org//api/v1/traceix/status"].
Proof. vm_compute. repeat split. Qed.

(** C2, amended. [check_status(None)] raises [NoUuidProvided] with nothing
    posted and the world untouched; every other identifier, the empty string
    among them, passes the guard: the request carrying it is posted and the
    method ends as the shared tail decides. *)
Theorem check_status_guard (self : TraceixSdk) (w : world) :
  check_status self PyNone w =
    (Raise (NoUuidProvided "You did not provide a UUID required by the endpoint"), w)
  /\ (forall uuid, uuid <> PyNone ->
        check_status self uuid w =
          (late_result (transport w (posted w) (status_request self w uuid)),
           log_post (status_request self w uuid) w))
  /\ new_posts (check_status self PyNone) w = []
  /\ new_posts (check_status self (PyStr "")) w =
       [status_request self w (PyStr "")].
Proof.
  split; [reflexivity |]. split; [| split].
  - intros uuid Hne. apply check_status_run.
    destruct uuid; try reflexivity. now elim Hne.
  - now apply new_posts_none.
  - apply new_posts_app. unfold after.
    now rewrite check_status_run.
Qed.

(** ** Search by hash *)

Lemma py_eq_str_true v lit : py_eq_str v lit = true <-> v = PyStr lit.
Proof.
  destruct v; simpl; try (split; [discriminate | intros [=]]).
  destruct (String.eqb_spec s lit) as [-> | Hne]; split; try reflexivity.
  - discriminate.
  - intros [=]. contradiction.
Qed.

Lemma hash_search_capa_run self file_hash kwargs w :
  kwargs_get kwargs "search_type" (PyStr "capa") = PyStr "capa" ->
  hash_search self file_hash kwargs w =
  (late_result (transport w (posted w)
     (hash_request self w "/api/traceix/v1/capa/search" file_hash)),
   log_post (hash_request self w "/api/traceix/v1/capa/search" file_hash) w).
Proof.
  intros Hst. unfold hash_search. rewrite Hst.
  change (py_eq_str (PyStr "capa") "capa") with true.
  cbv iota. unfold bind.
  rewrite build_headers_run, post_and_decode_run. reflexivity.
Qed.

Lemma hash_search_exif_run self file_hash kwargs w :
  kwargs_get kwargs "search_type" (PyStr "capa") = PyStr "exif" ->
  hash_search self file_hash kwargs w =
  (late_result (transport w (posted w)
     (hash_request self w "/api/traceix/v1/exif/search" file_hash)),
   log_post (hash_request self w "/api/traceix/v1/exif/search" file_hash) w).
Proof.
  intros Hst. unfold hash_search. rewrite Hst.
  change (py_eq_str (PyStr "exif") "capa") with false.
  change (py_eq_str (PyStr "exif") "exif") with true.
  cbv iota. unfold bind.
  rewrite build_headers_run, post_and_decode_run. reflexivity.
Qed.

(** C4. Called without [search_type], or with [search_type="capa"],
    [hash_search] posts to the capa-search url; with [search_type="exif"] it
    posts to the exif-search url, a different one; in both cases the request
    carries [content-type: application/json] beside the two standard
    headers, and the body [{"sha256": file_hash}].  With any other value of
    [search_type] it raises [InvalidSearchType], posts nothing and leaves
    the world untouched. *)
Theorem hash_search_dispatch (self : TraceixSdk) (file_hash : pyval)
    (w : world) :
  let headers :=
    <["content-type" := "application/json"]> (standard_headers self w) in
  let capa :=
    mkRequest (base_url self +:+ "//api/traceix/v1/capa/search") headers
      (JsonBody (PyDict [("sha256", file_hash)])) in
  let exif :=
    mkRequest (base_url self +:+ "//api/traceix/v1/exif/search") headers
      (JsonBody (PyDict [("sha256", file_hash)])) in
  hash_search self file_hash ∅ w =
    (late_result (transport w (posted w) capa), log_post capa w)
  /\ hash_search self file_hash {[ "search_type" := PyStr "capa" ]} w =
    (late_result (transport w (posted w) capa), log_post capa w)
  /\ hash_search self file_hash {[ "search_type" := PyStr "exif" ]} w =
    (late_result (transport w (posted w) exif), log_post exif w)
  /\ (forall v, v <> PyStr "capa" -> v <> PyStr "exif" ->
        hash_search self file_hash {[ "search_type" := v ]} w =
          (Raise (InvalidSearchType "Search must be of type capa or exif"), w))
  /\ req_url capa <> req_url exif
  /\ headers !! "content-type" = Some "application/json"
  /\ headers !! "x-api-key" = Some (api_key self).
Proof.
  intros headers capa exif.
  assert (Hget : forall v : pyval,
             kwargs_get {[ "search_type" := v ]} "search_type" (PyStr "capa") = v).
  { intros v. unfold kwargs_get. now rewrite lookup_singleton_eq. }
  split; [| split; [| split; [| split; [| split; [| split]]]]].
  - rewrite hash_search_capa_run.
    + now rewrite (hash_request_explicit self w "api/traceix/v1/capa/search").
    + unfold kwargs_get. now rewrite lookup_empty.
  - rewrite hash_search_capa_run by apply Hget.
    now rewrite (hash_request_explicit self w "api/traceix/v1/capa/search").
  - rewrite hash_search_exif_run by apply Hget.
    now rewrite (hash_request_explicit self w "api/traceix/v1/exif/search").
  - intros v Hcapa Hexif. unfold hash_search. rewrite Hget.
    destruct (py_eq_str v "capa") eqn:Ec.
    { apply py_eq_str_true in Ec. contradiction. }
    destruct (py_eq_str v "exif") eqn:Ee.
    { apply py_eq_str_true in Ee. contradiction. }
    reflexivity.
  - simpl req_url. intros Heq. apply append_inj_l in Heq. discriminate.
  - apply lookup_insert_eq.
  - unfold headers, standard_headers.
    rewrite !lookup_insert_ne by discriminate. apply lookup_insert_eq.
Qed.

Lemma hash_search_dispatch_witness :
  hash_search sdk0 (PyStr "ab12") {[ "search_type" := PyStr "md5" ]}
    (make_world ∅ net_answers) =
    (Raise (InvalidSearchType "Search must be of type capa or exif"),
     make_world ∅ net_answers)
  /\ hash_search sdk0 (PyStr "ab12") {[ "search_type" := PyNone ]}
       (make_world ∅ net_answers) =
    (Raise (InvalidSearchType "Search must be of type capa or exif"),
     make_world ∅ net_answers).
Proof.
  split.
  - apply (hash_search_dispatch sdk0 (PyStr "ab12") (make_world ∅ net_answers));
      discriminate.
  - apply (hash_search_dispatch sdk0 (PyStr "ab12") (make_world ∅ net_answers));
      discriminate.
Defined.

(** The urls and the content type on concrete runs. *)
Example hash_search_capa_sample :
  map req_url
    (new_posts (hash_search sdk0 (PyStr "ab12") ∅) (make_world ∅ net_answers)) =
  ["https://ai.perkinsfund.org//api/traceix/v1/capa/search"]
  /\ map (fun r => req_headers r !! "content-type")
       (new_posts (hash_search sdk0 (PyStr "ab12") ∅)
          (make_world ∅ net_answers)) =
     [Some "application/json"].
Proof. vm_compute. split; reflexivity. Qed.

Example hash_search_exif_sample :
  map req_url
    (new_posts (hash_search sdk0 (PyStr "ab12") {[ "search_type" := PyStr "exif" ]})
       (make_world ∅ net_answers)) =
  ["https://ai.perkinsfund.org//api/traceix/v1/exif/search"].
Proof. vm_compute. reflexivity. Qed.

Example hash_search_unknown_sample :
  hash_search sdk0 (PyStr "ab12") {[ "search_type" := PyStr "md5" ]}
    (make_world ∅ net_answers) =
  (Raise (InvalidSearchType "Search must be of type capa or exif"),
   make_world ∅ net_answers).
Proof. vm_compute. reflexivity. Qed.

Example hash_search_non_string_sample :
  outcome (hash_search sdk0 (PyStr "ab12") {[ "search_type" := PyNone ]})
    (make_world ∅ net_answers) =
  Raise (InvalidSearchType "Search must be of type capa or exif").
Proof. vm_compute. reflexivity. Qed.

(** ** Full upload *)

Lemma same_host_refl w : same_host w w.
Proof. repeat split. Qed.

Lemma same_host_step w w' r h :
  same_host w w' -> same_host w (log_post r (log_open h w')).
Proof. intros (He & Hf & Hp & Hv & Ht). repeat split; assumption. Qed.

Lemma file_call_readable_later self path fn data w w' :
  same_host w w' ->
  fs w !! fn = Some data ->
  file_call self path fn w' =
  (late_result (transport w (posted w') (file_request self w path fn data)),
   log_post (file_request self w path fn data) (log_open (mkHandle fn data) w')).
Proof.
  intros (He & Hf & Hp & Hv & Ht) Hfs.
  rewrite (file_call_readable self path fn data w') by now rewrite Hf.
  unfold file_request. rewrite (headers_in_frame self w w') by assumption.
  now rewrite Ht.
Qed.






(** The tuple and the three urls on a concrete run. *)
Example full_upload_sample :
  outcome (full_upload sdk0 sample_file) (make_world ∅ net_answers) =
    Ok (PyTuple [PyDict [("status", PyStr "ok")];
                 PyDict [("status", PyStr "ok")];
                 PyDict [("status", PyStr "ok")]])
  /\ map req_url (new_posts (full_upload sdk0 sample_file)
                    (make_world ∅ net_answers)) =
     ["https://ai.perkinsfund.org//api/traceix/v1/upload";
      "https://ai.perkinsfund.org//api/traceix/v1/capa";
      "https://ai.perkinsfund.org//api/traceix/v1/exif"].
Proof. vm_compute. split; reflexivity. Qed.

(** ** Every public operation *)

Lemma build_url_doubled self tail body headers :
  doubled_separator self
    (mkRequest (build_url self ("/" +:+ tail)) headers body).
Proof.
  exists tail. split; [reflexivity |]. split; [reflexivity |].
  unfold build_url. simpl req_url. intros H.
  apply append_inj_l in H. simpl in H. injection H as H.
  apply (f_equal String.length) in H. simpl in H. lia.
Qed.

(** *** What a method may post *)

Section PostsOnly.
Variable P : request -> Prop.

Lemma posts_only_ret {A} (a : A) : posts_only P (ret a).
Proof. intros w. exists []. split; [symmetry; apply app_nil_r | constructor]. Qed.

Lemma posts_only_raise {A} (e : exn) : posts_only P (@raise A e).
Proof. intros w. exists []. split; [symmetry; apply app_nil_r | constructor]. Qed.

Lemma posts_only_bind {A B} (m : M A) (k : A -> M B) :
  posts_only P m -> (forall a, posts_only P (k a)) -> posts_only P (bind m k).
Proof.
  intros Hm Hk w. destruct (Hm w) as (rs & Hrs & HP).
  unfold after, bind in *. destruct (m w) as [[a|e] w1]; simpl in Hrs.
  - destruct (Hk a w1) as (rs' & Hrs' & HP'). unfold after in Hrs'.
    exists (rs ++ rs'). split.
    + rewrite Hrs'. rewrite Hrs. now rewrite app_assoc.
    + now apply Forall_app.
  - now exists rs.
Qed.

Lemma posts_only_build_headers self : posts_only P (build_headers self).
Proof.
  intros w. exists []. unfold after. rewrite build_headers_run.
  split; [symmetry; apply app_nil_r | constructor].
Qed.

Lemma posts_only_build_file_data fn : posts_only P (build_file_data fn).
Proof.
  intros w. exists []. unfold after, build_file_data, bind, py_open, ret.
  split; [| constructor].
  destruct (fs w !! fn); symmetry; apply app_nil_r.
Qed.

Lemma posts_only_post_and_decode url headers body :
  P (mkRequest url headers body) ->
  posts_only P (post_and_decode url headers body).
Proof.
  intros HP w. exists [mkRequest url headers body].
  unfold after. rewrite post_and_decode_run.
  split; [reflexivity | now repeat constructor].
Qed.

Lemma posts_only_new_posts {A} (m : M A) w :
  posts_only P m -> Forall P (new_posts m w).
Proof.
  intros Hm. destruct (Hm w) as (rs & Hrs & HP).
  now rewrite (new_posts_app m w rs Hrs).
Qed.
End PostsOnly.

Ltac posts_step :=
  first
    [ apply posts_only_ret
    | apply posts_only_raise
    | apply posts_only_build_headers
    | apply posts_only_build_file_data
    | apply posts_only_post_and_decode
    | apply posts_only_bind; [| intros ?] ].

Lemma invoke_doubled_separator self c :
  posts_only (doubled_separator self) (invoke self c).
Proof.
  assert (Hfile : forall path fn,
             posts_only (doubled_separator self)
               (file_call self ("/" +:+ path) fn)).
  { intros path fn. unfold file_call. repeat posts_step.
    apply build_url_doubled. }
  destruct c as [fn|fn|uuid|h kw|fn|fn| |cid|h]; simpl invoke.
  - unfold full_upload.
    rewrite ai_prediction_file_call.
    apply posts_only_bind; [apply (Hfile "api/traceix/v1/upload") | intros a].
    rewrite capa_extraction_file_call.
    apply posts_only_bind; [apply (Hfile "api/traceix/v1/capa") | intros b].
    rewrite exif_extraction_file_call.
    apply posts_only_bind; [apply (Hfile "api/traceix/v1/exif") | intros e].
    apply posts_only_ret.
  - rewrite ai_prediction_file_call. apply (Hfile "api/traceix/v1/upload").
  - unfold check_status. destruct (is_none uuid); repeat posts_step.
    apply (build_url_doubled self "api/v1/traceix/status").
  - unfold hash_search.
    destruct (py_eq_str _ "capa"); [| destruct (py_eq_str _ "exif")];
      repeat posts_step.
    + apply (build_url_doubled self "api/traceix/v1/capa/search").
    + apply (build_url_doubled self "api/traceix/v1/exif/search").
  - rewrite capa_extraction_file_call. apply (Hfile "api/traceix/v1/capa").
  - rewrite exif_extraction_file_call. apply (Hfile "api/traceix/v1/exif").
  - unfold list_all_ipfs_datasets. repeat posts_step.
    apply (build_url_doubled self "api/traceix/v1/ipfs/listall").
  - unfold get_public_ipfs_dataset. repeat posts_step.
    apply (build_url_doubled self "api/traceix/v1/ipfs/search").
  - unfold search_ipfs_dataset_by_hash. repeat posts_step.
    apply (build_url_doubled self "api/traceix/v1/ipfs/find").
Qed.

(** C3, on the code.  Whatever public method is called, every url handed to
    [requests.post] is the base address, two separators, and the rest of the
    path: [__build_url] inserts one ["/"] and every path literal starts with
    another.  On a client built by the constructor,
    [list_all_ipfs_datasets] posts to
    [https://ai.perkinsfund.org//api/traceix/v1/ipfs/listall]. *)
Theorem request_url_has_two_separators (self : TraceixSdk) (c : call)
    (w : world) :
  Forall (doubled_separator self) (new_posts (invoke self c) w)
  /\ (outcome (init (Some "secret")) w = Ok sdk0
      /\ map req_url (new_posts (invoke sdk0 ListAllIpfsDatasets) w) =
         ["https://ai.perkinsfund.org//api/traceix/v1/ipfs/listall"]).
Proof.
  split; [apply posts_only_new_posts, invoke_doubled_separator |].
  split; [reflexivity |].
  simpl invoke. now rewrite list_all_new_posts.
Qed.

(** ** Failures after the pre-call steps *)

Lemma uniform_transport_ends self w res :
  (forall hist r, late_result (transport w hist r) = res) ->
  every_operation_ends self w res (thrice res).
Proof.
  intros Hall.
  assert (Hfile : forall path fn w', same_host w w' -> fs w !! fn <> None ->
            exists w'', file_call self path fn w' = (res, w'') /\ same_host w w'').
  { intros path fn w' Hsame Hfs.
    destruct (fs w !! fn) as [data|] eqn:Hdata; [| now elim Hfs].
    rewrite (file_call_readable_later self path fn data w w' Hsame Hdata).
    rewrite Hall. eexists; split; [reflexivity |].
    now apply same_host_step. }
  assert (Hone : forall path fn, fs w !! fn <> None ->
            outcome (file_call self path fn) w = res).
  { intros path fn Hfs.
    destruct (Hfile path fn w (same_host_refl w) Hfs) as (w'' & Hrun & _).
    unfold outcome. now rewrite Hrun. }
  unfold every_operation_ends, outcome.
  repeat split.
  - intros fn Hfs. rewrite ai_prediction_file_call. now apply Hone.
  - intros uuid Hne. rewrite check_status_run; [apply Hall |].
    destruct uuid; try reflexivity. now elim Hne.
  - intros h kwargs [Hst | Hst].
    + rewrite hash_search_capa_run by exact Hst. apply Hall.
    + rewrite hash_search_exif_run by exact Hst. apply Hall.
  - intros fn Hfs. rewrite capa_extraction_file_call. now apply Hone.
  - intros fn Hfs. rewrite exif_extraction_file_call. now apply Hone.
  - unfold list_all_ipfs_datasets, bind.
    rewrite build_headers_run, post_and_decode_run. apply Hall.
  - intros cid. unfold get_public_ipfs_dataset, bind.
    rewrite build_headers_run, post_and_decode_run. apply Hall.
  - intros h. unfold search_ipfs_dataset_by_hash, bind.
    rewrite build_headers_run, post_and_decode_run. apply Hall.
  - intros fn Hfs. unfold full_upload, bind.
    rewrite ai_prediction_file_call, capa_extraction_file_call,
      exif_extraction_file_call.
    destruct (Hfile "/api/traceix/v1/upload" fn w (same_host_refl w) Hfs)
      as (w1 & Hrun1 & Hsame1).
    rewrite Hrun1. destruct res as [v|e]; [| reflexivity].
    destruct (Hfile "/api/traceix/v1/capa" fn w1 Hsame1 Hfs)
      as (w2 & Hrun2 & Hsame2).
    rewrite Hrun2.
    destruct (Hfile "/api/traceix/v1/exif" fn w2 Hsame2 Hfs)
      as (w3 & Hrun3 & _).
    rewrite Hrun3. reflexivity.
Qed.

(** A method other than [full_upload] either stops at a pre-call step,
    with nothing posted, or posts one request and ends as the shared tail
    decides. *)
Lemma invoke_single_shape self c w :
  (forall fn, c <> FullUpload fn) ->
  (exists e, invoke self c w = (Raise e, w))
  \/ (exists r w0,
        posted w0 = posted w
        /\ invoke self c w =
           (late_result (transport w (posted w) r), log_post r w0)).
Proof.
  intros Hsingle.
  assert (Hfile : forall path fn,
            (exists e, file_call self path fn w = (Raise e, w))
            \/ (exists r w0,
                  posted w0 = posted w
                  /\ file_call self path fn w =
                     (late_result (transport w (posted w) r), log_post r w0))).
  { intros path fn. destruct (fs w !! fn) as [data|] eqn:Hfs.
    - right. rewrite (file_call_readable self path fn data w Hfs).
      eexists _, _. split; [| reflexivity]. reflexivity.
    - left. rewrite (file_call_unreadable self path fn w Hfs). eauto. }
  destruct c as [fn|fn|uuid|h kw|fn|fn| |cid|h]; simpl invoke.
  - now elim (Hsingle fn).
  - rewrite ai_prediction_file_call. apply Hfile.
  - destruct (is_none uuid) eqn:Hnone.
    + left. unfold check_status. rewrite Hnone. unfold raise. eauto.
    + right. rewrite (check_status_run self uuid w Hnone). eauto.
  - destruct (py_eq_str (kwargs_get kw "search_type" (PyStr "capa")) "capa")
      eqn:Ec.
    { right. apply py_eq_str_true in Ec.
      rewrite (hash_search_capa_run self h kw w Ec). eauto. }
    destruct (py_eq_str (kwargs_get kw "search_type" (PyStr "capa")) "exif")
      eqn:Ee.
    { right. apply py_eq_str_true in Ee.
      rewrite (hash_search_exif_run self h kw w Ee). eauto. }
    left. unfold hash_search. rewrite Ec, Ee. unfold raise. eauto.
  - rewrite capa_extraction_file_call. apply Hfile.
  - rewrite exif_extraction_file_call. apply Hfile.
  - right. unfold list_all_ipfs_datasets, bind.
    rewrite build_headers_run, post_and_decode_run. eauto.
  - right. unfold get_public_ipfs_dataset, bind.
    rewrite build_headers_run, post_and_decode_run. eauto.
  - right. unfold search_ipfs_dataset_by_hash, bind.
    rewrite build_headers_run, post_and_decode_run. eauto.
Qed.

(** Hence: when such a method posted the request [r], its outcome is what
    the tail makes of the transport's answer to [r]. *)
Lemma single_post_outcome self c w r :
  (forall fn, c <> FullUpload fn) ->
  new_posts (invoke self c) w = [r] ->
  outcome (invoke self c) w = late_result (transport w (posted w) r).
Proof.
  intros Hsingle Hposts.
  destruct (invoke_single_shape self c w Hsingle)
    as [[e Hrun] | (r' & w0 & Hlog & Hrun)].
  - rewrite new_posts_none in Hposts; [discriminate |].
    unfold after. now rewrite Hrun.
  - rewrite (new_posts_app _ w [r']) in Hposts.
    + injection Hposts as ->. unfold outcome. now rewrite Hrun.
    + unfold after. rewrite Hrun. simpl. now rewrite Hlog.
Qed.

(** C1, as stated, fails: a response whose body does not decode makes
    [req.json()] raise outside the [try] block, and the exception reaches the
    caller; and when the transport raises, [full_upload] returns a tuple of
    three [None], not [None]. *)
Lemma undecodable_body_raises :
  outcome (list_all_ipfs_datasets sdk0) (make_world ∅ net_garbled) =
    Raise JSONDecodeError
  /\ outcome (check_status sdk0 (PyStr "abc")) (make_world ∅ net_garbled) =
    Raise JSONDecodeError
  /\ outcome (full_upload sdk0 sample_file) (make_world ∅ net_down) =
    Ok (PyTuple [PyNone; PyNone; PyNone]).
Proof. vm_compute. repeat split. Qed.

(** C1, amended.  A public method that got as far as its network call
    returns [None] when that call raises, whatever the exception; when the
    call returns a response whose body does not decode, the decoder's
    exception leaves the method.  In particular, when every call raises,
    each method whose pre-call steps succeed returns [None] and
    [full_upload] the tuple [(None, None, None)]; when every body is
    undecodable, each of them raises. *)
Theorem late_failure_outcomes (self : TraceixSdk) (w : world) :
  (forall c r,
      (forall fn, c <> FullUpload fn) ->
      new_posts (invoke self c) w = [r] ->
      (forall e, transport w (posted w) r = NetRaise e ->
                 outcome (invoke self c) w = Ok PyNone)
      /\ (forall resp, transport w (posted w) r = NetReturn resp ->
                       resp_json resp = None ->
                       outcome (invoke self c) w = Raise JSONDecodeError))
  /\ ((forall hist r, exists e, transport w hist r = NetRaise e) ->
      every_operation_ends self w
        (Ok PyNone) (Ok (PyTuple [PyNone; PyNone; PyNone])))
  /\ ((forall hist r, exists resp,
          transport w hist r = NetReturn resp /\ resp_json resp = None) ->
      every_operation_ends self w
        (Raise JSONDecodeError) (Raise JSONDecodeError)).
Proof.
  split; [| split].
  - intros c r Hsingle Hposts.
    pose proof (single_post_outcome self c w r Hsingle Hposts) as Hout.
    split.
    + intros e He. now rewrite Hout, He.
    + intros resp Hresp Hj. rewrite Hout, Hresp. simpl. now rewrite Hj.
  - intros Hnet. apply (uniform_transport_ends self w (Ok PyNone)).
    intros hist r. destruct (Hnet hist r) as [e ->]. reflexivity.
  - intros Hnet. apply (uniform_transport_ends self w (Raise JSONDecodeError)).
    intros hist r. destruct (Hnet hist r) as (resp & -> & Hj).
    simpl. now rewrite Hj.
Qed.

Lemma late_failure_outcomes_witness :
  outcome (invoke sdk0 (CheckStatus (PyStr "abc"))) (make_world ∅ net_down) =
    Ok PyNone
  /\ every_operation_ends sdk0 (make_world ∅ net_down)
       (Ok PyNone) (Ok (PyTuple [PyNone; PyNone; PyNone]))
  /\ every_operation_ends sdk0 (make_world ∅ net_garbled)
       (Raise JSONDecodeError) (Raise JSONDecodeError).
Proof.
  split; [| split].
  - apply (proj1 (late_failure_outcomes sdk0 (make_world ∅ net_down))
             (CheckStatus (PyStr "abc"))
             (status_request sdk0 (make_world ∅ net_down) (PyStr "abc")))
      with (e := TransportError "ConnectionError").
    + discriminate.
    + apply new_posts_app. reflexivity.
    + reflexivity.
  - apply (proj1 (proj2 (late_failure_outcomes sdk0 (make_world ∅ net_down)))).
    intros hist r. exists (TransportError "ConnectionError"). reflexivity.
  - apply (proj2 (proj2 (late_failure_outcomes sdk0 (make_world ∅ net_garbled)))).
    intros hist r. exists (mkResponse 502 None). split; reflexivity.
Defined.

(** ** Further properties of the constructor *)

(** X1. With no argument the constructor takes the credential from
    [TRACEIX_API_KEY]: a non-empty value there makes construction succeed
    and is stored unchanged, beside the fixed base address.  An explicit
    argument is never replaced by the variable: with the same environment,
    the explicit empty string still raises [NoApiKey]. *)
Theorem init_environment_fallback (k : string) (w : world) :
  environ w !! "TRACEIX_API_KEY" = Some k ->
  k <> "" ->
  init None w = (Ok (mkSdk k "https://ai.perkinsfund.org"), w)
  /\ init (Some "") w =
       (Raise (NoApiKey "You did not provide an API key"), w).
Proof.
  intros Henv Hk. split; [| reflexivity].
  unfold init, bind, os_getenv, ret. rewrite Henv.
  destruct (String.eqb_spec k "") as [Heq | _]; [contradiction | reflexivity].
Qed.

Lemma init_environment_fallback_witness :
  init None (make_world {[ "TRACEIX_API_KEY" := "from-env" ]} net_answers) =
    (Ok (mkSdk "from-env" "https://ai.perkinsfund.org"),
     make_world {[ "TRACEIX_API_KEY" := "from-env" ]} net_answers)
  /\ init (Some "")
       (make_world {[ "TRACEIX_API_KEY" := "from-env" ]} net_answers) =
     (Raise (NoApiKey "You did not provide an API key"),
      make_world {[ "TRACEIX_API_KEY" := "from-env" ]} net_answers).
Proof.
  apply (init_environment_fallback "from-env"
           (make_world {[ "TRACEIX_API_KEY" := "from-env" ]} net_answers)).
  - vm_compute. reflexivity.
  - discriminate.
Defined.

(** X2. Whatever the argument and the environment, a client the
    constructor returns holds a non-empty credential and the fixed base
    address; the credential is the explicit argument when one was given and
    the value of [TRACEIX_API_KEY] otherwise; and constructing changes
    nothing in the world. *)
Theorem init_result_invariant (arg : option string) (w w' : world)
    (self : TraceixSdk) :
  init arg w = (Ok self, w') ->
  w' = w
  /\ api_key self <> ""
  /\ base_url self = "https://ai.perkinsfund.org"
  /\ (arg = Some (api_key self)
      \/ (arg = None /\ environ w !! "TRACEIX_API_KEY" = Some (api_key self))).
Proof.
  unfold init, bind, os_getenv, ret, raise.
  destruct arg as [k|].
  - destruct (String.eqb_spec k "") as [Heq | Hne]; [discriminate |].
    intros [= <- <-]. simpl.
    split; [reflexivity | split; [exact Hne | split; [reflexivity |]]].
    now left.
  - destruct (environ w !! "TRACEIX_API_KEY") as [k|] eqn:Henv; [| discriminate].
    destruct (String.eqb_spec k "") as [Heq | Hne]; [discriminate |].
    intros [= <- <-]. simpl.
    split; [reflexivity | split; [exact Hne | split; [reflexivity |]]].
    now right.
Qed.

Lemma init_result_invariant_witness :
  make_world {[ "TRACEIX_API_KEY" := "from-env" ]} net_answers =
    make_world {[ "TRACEIX_API_KEY" := "from-env" ]} net_answers
  /\ api_key (mkSdk "from-env" "https://ai.perkinsfund.org") <> ""
  /\ base_url (mkSdk "from-env" "https://ai.perkinsfund.org") =
       "https://ai.perkinsfund.org"
  /\ (None = Some (api_key (mkSdk "from-env" "https://ai.perkinsfund.org"))
      \/ (@None string = None
          /\ environ (make_world {[ "TRACEIX_API_KEY" := "from-env" ]} net_answers)
               !! "TRACEIX_API_KEY" =
             Some (api_key (mkSdk "from-env" "https://ai.perkinsfund.org")))).
Proof.
  apply (init_result_invariant None
           (make_world {[ "TRACEIX_API_KEY" := "from-env" ]} net_answers)).
  vm_compute. reflexivity.
Defined.

(** ** What a method does to the world *)

Lemma same_host_trans w0 w w' :
  same_host w0 w -> same_host w w' -> same_host w0 w'.
Proof.
  intros (He & Hf & Hp & Hv & Ht) (He' & Hf' & Hp' & Hv' & Ht').
  repeat split; congruence.
Qed.

Lemma same_host_headers self w0 w :
  same_host w0 w -> headers_in self w = headers_in self w0.
Proof. intros (He & _ & Hp & Hv & _). now apply headers_in_frame. Qed.

Ltac split_effects :=
  split; [| split; [| split; [| split; [| split; [| split]]]]].

Section Bounded.
Variable w0 : world.
Variable P : request -> Prop.

Lemma bounded_ret {A} (Q : A -> Prop) (a : A) :
  Q a -> bounded w0 P 0 0 Q (ret a).
Proof.
  intros HQ w Hw. exists [], []. unfold after, outcome, ret; simpl.
  rewrite !app_nil_r. split_effects; try easy.
  now intros a' [= <-].
Qed.

Lemma bounded_raise {A} (Q : A -> Prop) (e : exn) :
  bounded w0 P 0 0 Q (raise e).
Proof.
  intros w Hw. exists [], []. unfold after, outcome, raise; simpl.
  rewrite !app_nil_r. split_effects; easy.
Qed.

Lemma bounded_bind {A B} (Q1 : A -> Prop) (Q2 : B -> Prop) n1 h1 n2 h2
    (m : M A) (k : A -> M B) :
  bounded w0 P n1 h1 Q1 m ->
  (forall a, Q1 a -> bounded w0 P n2 h2 Q2 (k a)) ->
  bounded w0 P (n1 + n2) (h1 + h2) Q2 (bind m k).
Proof.
  intros Hm Hk w Hw.
  destruct (Hm w Hw) as (rs & hs & Hs & Hp & Ho & HP & Hn & Hh & HQ).
  unfold after, outcome, bind in *.
  destruct (m w) as [[a|e] w1]; simpl in *.
  - destruct (Hk a (HQ a eq_refl) w1 Hs)
      as (rs' & hs' & Hs' & Hp' & Ho' & HP' & Hn' & Hh' & HQ').
    unfold after, outcome in *.
    exists (rs ++ rs'), (hs ++ hs'). split_effects.
    + exact Hs'.
    + now rewrite Hp', Hp, app_assoc.
    + now rewrite Ho', Ho, app_assoc.
    + now apply Forall_app.
    + rewrite length_app. lia.
    + rewrite length_app. lia.
    + exact HQ'.
  - exists rs, hs. split_effects; try assumption; try lia. discriminate.
Qed.

Lemma bounded_weaken {A} (Q : A -> Prop) n h n' h' (m : M A) :
  bounded w0 P n h Q m -> n <= n' -> h <= h' -> bounded w0 P n' h' Q m.
Proof.
  intros Hm Hn Hh w Hw.
  destruct (Hm w Hw) as (rs & hs & Hs & Hp & Ho & HP & Hn' & Hh' & HQ).
  exists rs, hs. split_effects; try assumption; lia.
Qed.

Lemma bounded_build_headers self :
  bounded w0 P 0 0 (fun h => h = headers_in self w0) (build_headers self).
Proof.
  intros w Hw. exists [], []. unfold after, outcome.
  rewrite build_headers_run; simpl. rewrite !app_nil_r.
  split_effects; try easy.
  intros a [= <-]. now apply same_host_headers.
Qed.

Lemma bounded_build_file_data fn :
  bounded w0 P 0 1
    (fun parts => exists data,
         fs w0 !! fn = Some data /\ parts = [upload_part fn data])
    (build_file_data fn).
Proof.
  intros w Hw. pose proof Hw as (He & Hf & Hp & Hv & Ht).
  unfold after, outcome, build_file_data, bind, py_open, ret.
  destruct (fs w !! fn) as [data|] eqn:Hfs; simpl.
  - exists [], [mkHandle fn data]. rewrite app_nil_r.
    split_effects; try easy; try (simpl; lia).
    intros a [= <-]. exists data. split; [now rewrite <- Hf | reflexivity].
  - exists [], []. rewrite !app_nil_r.
    split_effects; try easy; try (simpl; lia).
Qed.

Lemma bounded_post_and_decode url headers body :
  P (mkRequest url headers body) ->
  bounded w0 P 1 0 (fun _ => True) (post_and_decode url headers body).
Proof.
  intros HP w Hw. pose proof Hw as (He & Hf & Hp & Hv & Ht).
  exists [mkRequest url headers body], [].
  unfold after, outcome. rewrite post_and_decode_run; simpl.
  rewrite app_nil_r.
  split_effects; try easy; try (simpl; lia).
  now repeat constructor.
Qed.
End Bounded.

Lemma file_call_bounded self w0 path fn :
  bounded w0 (fun r => req_headers r = headers_in self w0) 1 1
    (fun _ => True) (file_call self path fn).
Proof.
  unfold file_call.
  eapply bounded_weaken.
  - eapply bounded_bind; [apply bounded_build_headers |].
    intros headers ->.
    eapply bounded_bind; [apply bounded_build_file_data |].
    intros parts _. now apply bounded_post_and_decode.
  - simpl. lia.
  - simpl. lia.
Qed.

Lemma json_call_bounded self w0 path (body : payload) :
  bounded w0 (fun r => req_headers r = headers_in self w0) 1 0
    (fun _ => True)
    (bind (build_headers self)
       (fun headers => post_and_decode (build_url self path) headers body)).
Proof.
  eapply bounded_weaken.
  - eapply bounded_bind; [apply bounded_build_headers |].
    intros headers ->. now apply bounded_post_and_decode.
  - simpl. lia.
  - simpl. lia.
Qed.

Lemma invoke_bounded self w0 c :
  bounded w0 (fun r => req_headers r = sent_headers self w0 c)
    (max_posts c) (max_opens c) (fun _ => True) (invoke self c).
Proof.
  destruct c as [fn|fn|uuid|h kw|fn|fn| |cid|h]; simpl invoke;
    simpl sent_headers; simpl max_posts; simpl max_opens.
  - unfold full_upload.
    rewrite ai_prediction_file_call, capa_extraction_file_call,
      exif_extraction_file_call.
    eapply bounded_weaken.
    + eapply bounded_bind; [apply file_call_bounded | intros a _].
      eapply bounded_bind; [apply file_call_bounded | intros b _].
      eapply bounded_bind; [apply file_call_bounded | intros e _].
      now apply bounded_ret.
    + simpl. lia.
    + simpl. lia.
  - rewrite ai_prediction_file_call. apply file_call_bounded.
  - unfold check_status. destruct (is_none uuid).
    + eapply bounded_weaken; [apply bounded_raise | lia | lia].
    + apply json_call_bounded.
  - unfold hash_search.
    destruct (py_eq_str _ "capa"); [| destruct (py_eq_str _ "exif")].
    + eapply bounded_weaken.
      * eapply bounded_bind; [apply bounded_build_headers |].
        intros headers ->. now apply bounded_post_and_decode.
      * simpl. lia.
      * simpl. lia.
    + eapply bounded_weaken.
      * eapply bounded_bind; [apply bounded_build_headers |].
        intros headers ->. now apply bounded_post_and_decode.
      * simpl. lia.
      * simpl. lia.
    + eapply bounded_weaken; [apply bounded_raise | lia | lia].
  - rewrite capa_extraction_file_call. apply file_call_bounded.
  - rewrite exif_extraction_file_call. apply file_call_bounded.
  - apply json_call_bounded.
  - apply json_call_bounded.
  - apply json_call_bounded.
Qed.

(** X3. No public method changes the environment, the filesystem or the
    transport; it only appends to the log of posted requests and to the
    opened handles.  A method posts at most one request (no retry) and
    [full_upload] at most three; only the upload methods open a file, once
    each, and [full_upload] at most three times. *)
Theorem invoke_effects (self : TraceixSdk) (c : call) (w : world) :
  exists rs hs,
    same_host w (after (invoke self c) w)
    /\ posted (after (invoke self c) w) = posted w ++ rs
    /\ opened (after (invoke self c) w) = opened w ++ hs
    /\ length rs <= max_posts c
    /\ length hs <= max_opens c.
Proof.
  destruct (invoke_bounded self w c w (same_host_refl w))
    as (rs & hs & Hs & Hp & Ho & _ & Hn & Hh & _).
  exists rs, hs. auto.
Qed.

Lemma user_agent_in_opted_out self w :
  environ w !! "TRACEIX_DISABLE_TELEMETRY" = Some "1" ->
  user_agent_in self w = "Traceix/0.0.0.1".
Proof.
  intros Hflag.
  unfold user_agent_in, outcome, build_user_agent, bind, os_getenv.
  rewrite Hflag. reflexivity.
Qed.

Lemma sent_headers_lookup self w c :
  sent_headers self w c !! "x-api-key" = Some (api_key self)
  /\ sent_headers self w c !! "user-agent" = Some (user_agent_in self w)
  /\ sent_headers self w c !! "content-type" =
     match c with
     | HashSearch _ _ => Some "application/json"
     | _ => None
     end.
Proof.
  assert (Hstd : headers_in self w !! "x-api-key" = Some (api_key self)
                 /\ headers_in self w !! "user-agent" = Some (user_agent_in self w)
                 /\ headers_in self w !! "content-type" = None).
  { rewrite headers_in_eq. split; [| split].
    - rewrite lookup_insert_ne by discriminate. apply lookup_insert_eq.
    - apply lookup_insert_eq.
    - rewrite !lookup_insert_ne by discriminate. apply lookup_empty. }
  destruct Hstd as (Hk & Hu & Hc).
  destruct c; simpl sent_headers; try (now repeat split).
  split; [| split].
  - now rewrite lookup_insert_ne by discriminate.
  - now rewrite lookup_insert_ne by discriminate.
  - apply lookup_insert_eq.
Qed.

(** X4. Every request any public method posts carries the client's
    credential under [x-api-key] and the identifier string under
    [user-agent], [list_all_ipfs_datasets] included; a [content-type] header
    is set by [hash_search] alone. *)
Theorem every_request_carries_headers (self : TraceixSdk) (c : call)
    (w : world) :
  Forall (fun r =>
            req_headers r !! "x-api-key" = Some (api_key self)
            /\ req_headers r !! "user-agent" = Some (user_agent_in self w)
            /\ req_headers r !! "content-type" =
               match c with
               | HashSearch _ _ => Some "application/json"
               | _ => None
               end)
         (new_posts (invoke self c) w).
Proof.
  destruct (invoke_bounded self w c w (same_host_refl w))
    as (rs & hs & _ & Hp & _ & HP & _).
  rewrite (new_posts_app _ w rs Hp).
  eapply Forall_impl; [exact HP |].
  intros r Hr. simpl in Hr. rewrite Hr. apply sent_headers_lookup.
Qed.

(** ** Upload methods *)

Lemma file_call_readable_effects self path fn data w :
  fs w !! fn = Some data ->
  new_posts (file_call self path fn) w = [file_request self w path fn data]
  /\ opened (after (file_call self path fn) w) =
       opened w ++ [mkHandle fn data].
Proof.
  intros Hfs. unfold after.
  split.
  - apply new_posts_app. unfold after.
    now rewrite (file_call_readable self path fn data w Hfs).
  - now rewrite (file_call_readable self path fn data w Hfs).
Qed.

(** X5. For a file [open] can read, [ai_prediction], [capa_extraction] and
    [exif_extraction] each call [open] once, on the path as given, and post
    one multipart request, to the upload, capa and exif url respectively,
    whose only part is the field [file] holding the tuple (file name as
    given, the handle on the file's bytes, [application/octet-stream]). *)
Theorem upload_opens_once_and_posts_file (self : TraceixSdk)
    (filename : string) (data : list Byte.byte) (w : world) :
  fs w !! filename = Some data ->
  let body := FilesBody [mkPart "file" filename (mkHandle filename data)
                           "application/octet-stream"] in
  (new_posts (ai_prediction self filename) w =
     [mkRequest (base_url self +:+ "//api/traceix/v1/upload")
        (standard_headers self w) body]
   /\ opened (after (ai_prediction self filename) w) =
        opened w ++ [mkHandle filename data])
  /\ (new_posts (capa_extraction self filename) w =
        [mkRequest (base_url self +:+ "//api/traceix/v1/capa")
           (standard_headers self w) body]
      /\ opened (after (capa_extraction self filename) w) =
           opened w ++ [mkHandle filename data])
  /\ (new_posts (exif_extraction self filename) w =
        [mkRequest (base_url self +:+ "//api/traceix/v1/exif")
           (standard_headers self w) body]
      /\ opened (after (exif_extraction self filename) w) =
           opened w ++ [mkHandle filename data]).
Proof.
  intros Hfs body.
  rewrite ai_prediction_file_call, capa_extraction_file_call,
    exif_extraction_file_call.
  assert (E1 : file_request self w "/api/traceix/v1/upload" filename data =
               mkRequest (base_url self +:+ "//api/traceix/v1/upload")
                 (standard_headers self w) body)
    by apply (file_request_explicit self w "api/traceix/v1/upload").
  assert (E2 : file_request self w "/api/traceix/v1/capa" filename data =
               mkRequest (base_url self +:+ "//api/traceix/v1/capa")
                 (standard_headers self w) body)
    by apply (file_request_explicit self w "api/traceix/v1/capa").
  assert (E3 : file_request self w "/api/traceix/v1/exif" filename data =
               mkRequest (base_url self +:+ "//api/traceix/v1/exif")
                 (standard_headers self w) body)
    by apply (file_request_explicit self w "api/traceix/v1/exif").
  rewrite <- E1, <- E2, <- E3.
  repeat split;
    first [ now rewrite (proj1 (file_call_readable_effects self _ _ _ w Hfs))
          | now rewrite (proj2 (file_call_readable_effects self _ _ _ w Hfs)) ].
Qed.

Lemma upload_opens_once_and_posts_file_witness :
  (new_posts (ai_prediction sdk0 sample_file) (make_world ∅ net_down) =
     [mkRequest ("https://ai.perkinsfund.org" +:+ "//api/traceix/v1/upload")
        (standard_headers sdk0 (make_world ∅ net_down))
        (FilesBody [mkPart "file" sample_file
                      (mkHandle sample_file [Byte.x4d; Byte.x5a])
                      "application/octet-stream"])]
   /\ opened (after (ai_prediction sdk0 sample_file) (make_world ∅ net_down)) =
      opened (make_world ∅ net_down) ++
      [mkHandle sample_file [Byte.x4d; Byte.x5a]])
  /\ (new_posts (capa_extraction sdk0 sample_file) (make_world ∅ net_down) =
        [mkRequest ("https://ai.perkinsfund.org" +:+ "//api/traceix/v1/capa")
           (standard_headers sdk0 (make_world ∅ net_down))
           (FilesBody [mkPart "file" sample_file
                         (mkHandle sample_file [Byte.x4d; Byte.x5a])
                         "application/octet-stream"])]
      /\ opened (after (capa_extraction sdk0 sample_file) (make_world ∅ net_down)) =
         opened (make_world ∅ net_down) ++
         [mkHandle sample_file [Byte.x4d; Byte.x5a]])
  /\ (new_posts (exif_extraction sdk0 sample_file) (make_world ∅ net_down) =
        [mkRequest ("https://ai.perkinsfund.org" +:+ "//api/traceix/v1/exif")
           (standard_headers sdk0 (make_world ∅ net_down))
           (FilesBody [mkPart "file" sample_file
                         (mkHandle sample_file [Byte.x4d; Byte.x5a])
                         "application/octet-stream"])]
      /\ opened (after (exif_extraction sdk0 sample_file) (make_world ∅ net_down)) =
         opened (make_world ∅ net_down) ++
         [mkHandle sample_file [Byte.x4d; Byte.x5a]]).
Proof.
  apply (upload_opens_once_and_posts_file sdk0 sample_file
           [Byte.x4d; Byte.x5a] (make_world ∅ net_down)).
  vm_compute. reflexivity.
Defined.

(** ** Answers of the server *)

(** X6. A method that posted its request returns the decoded body of the
    response unchanged, whatever the status code: an answer with status 500
    and a JSON body is returned like any other, and never turned into
    [None] or into an exception. *)
Theorem decoded_body_is_returned (self : TraceixSdk) (c : call) (w : world)
    (r : request) (code : Z) (v : pyval) :
  (forall fn, c <> FullUpload fn) ->
  new_posts (invoke self c) w = [r] ->
  transport w (posted w) r = NetReturn (mkResponse code (Some v)) ->
  outcome (invoke self c) w = Ok v.
Proof.
  intros Hsingle Hposts Hnet.
  rewrite (single_post_outcome self c w r Hsingle Hposts), Hnet.
  reflexivity.
Qed.

Lemma decoded_body_is_returned_witness :
  outcome (invoke sdk0 (GetPublicIpfsDataset (PyStr "Qm1")))
    (make_world ∅ net_error) =
  Ok (PyDict [("error", PyStr "internal")]).
Proof.
  apply (decoded_body_is_returned sdk0 (GetPublicIpfsDataset (PyStr "Qm1"))
           (make_world ∅ net_error)
           (json_request sdk0 (make_world ∅ net_error)
              "/api/traceix/v1/ipfs/search" "cid" (PyStr "Qm1"))
           500).
  - discriminate.
  - apply new_posts_app. reflexivity.
  - reflexivity.
Defined.

(** ** Partial failures of the full upload *)

(** The outcome, the posts and the calls to [open] of [full_upload] on a
    readable file, with the requests as the builders make them. *)
Lemma full_upload_readable_cases (self : TraceixSdk)
    (filename : string) (data : list Byte.byte) (w : world) :
  fs w !! filename = Some data ->
  let r1 := file_request self w "/api/traceix/v1/upload" filename data in
  let r2 := file_request self w "/api/traceix/v1/capa" filename data in
  let r3 := file_request self w "/api/traceix/v1/exif" filename data in
  let o1 := late_result (transport w (posted w) r1) in
  let o2 := late_result (transport w (posted w ++ [r1]) r2) in
  let o3 := late_result (transport w (posted w ++ [r1; r2]) r3) in
  outcome (full_upload self filename) w =
    match o1, o2, o3 with
    | Ok a, Ok b, Ok e => Ok (PyTuple [a; b; e])
    | Raise x, _, _ => Raise x
    | Ok _, Raise x, _ => Raise x
    | Ok _, Ok _, Raise x => Raise x
    end
  /\ new_posts (full_upload self filename) w =
    match o1, o2 with
    | Raise _, _ => [r1]
    | Ok _, Raise _ => [r1; r2]
    | Ok _, Ok _ => [r1; r2; r3]
    end
  /\ opened (after (full_upload self filename) w) =
    opened w ++
    match o1, o2 with
    | Raise _, _ => [mkHandle filename data]
    | Ok _, Raise _ => [mkHandle filename data; mkHandle filename data]
    | Ok _, Ok _ => [mkHandle filename data; mkHandle filename data;
                     mkHandle filename data]
    end.
Proof.
  intros Hfs r1 r2 r3 o1 o2 o3.
  set (h := mkHandle filename data).
  set (w1 := log_post r1 (log_open h w)).
  set (w2 := log_post r2 (log_open h w1)).
  set (w3 := log_post r3 (log_open h w2)).
  assert (H1 : same_host w w1) by apply same_host_step, same_host_refl.
  assert (H2 : same_host w w2) by apply same_host_step, H1.
  assert (Hai : ai_prediction self filename w = (o1, w1)).
  { rewrite ai_prediction_file_call.
    now rewrite (file_call_readable self _ filename data w Hfs). }
  assert (Hcapa : capa_extraction self filename w1 = (o2, w2)).
  { rewrite capa_extraction_file_call.
    now rewrite (file_call_readable_later self _ filename data w w1 H1 Hfs). }
  assert (Hexif : exif_extraction self filename w2 = (o3, w3)).
  { rewrite exif_extraction_file_call.
    rewrite (file_call_readable_later self _ filename data w w2 H2 Hfs).
    unfold o3, w2, w1. simpl posted. now rewrite <- app_assoc. }
  unfold outcome, new_posts, after, full_upload, bind.
  rewrite Hai. destruct o1 as [a|x].
  - rewrite Hcapa. destruct o2 as [b|x].
    + rewrite Hexif. destruct o3 as [e|x]; simpl fst; simpl snd;
        (split; [reflexivity | split]);
        unfold w3, w2, w1; simpl posted; simpl opened;
        rewrite <- !app_assoc; first [apply drop_own_length | reflexivity].
    + simpl fst; simpl snd. split; [reflexivity | split];
        unfold w2, w1; simpl posted; simpl opened;
        rewrite <- !app_assoc; first [apply drop_own_length | reflexivity].
  - simpl fst; simpl snd. split; [reflexivity | split];
      unfold w1; simpl posted; simpl opened;
      first [apply drop_own_length | reflexivity].
Qed.

(** X7. For a readable file, [full_upload] runs its three calls in order
    and stops at the first answer that fails to decode: the exception leaves
    [full_upload], the results already obtained are lost and the remaining
    requests are never posted.  A call on which the transport raises does
    not stop it: that component of the tuple is [None] and the next call is
    made.  [open] is called once for each call made, so one, two or three
    times. *)
Theorem full_upload_stops_at_first_exception (self : TraceixSdk)
    (filename : string) (data : list Byte.byte) (w : world) :
  fs w !! filename = Some data ->
  let body :=
    FilesBody [mkPart "file" filename (mkHandle filename data)
                 "application/octet-stream"] in
  let r1 := mkRequest (base_url self +:+ "//api/traceix/v1/upload")
              (standard_headers self w) body in
  let r2 := mkRequest (base_url self +:+ "//api/traceix/v1/capa")
              (standard_headers self w) body in
  let r3 := mkRequest (base_url self +:+ "//api/traceix/v1/exif")
              (standard_headers self w) body in
  let o1 := late_result (transport w (posted w) r1) in
  let o2 := late_result (transport w (posted w ++ [r1]) r2) in
  let o3 := late_result (transport w (posted w ++ [r1; r2]) r3) in
  outcome (full_upload self filename) w =
    match o1, o2, o3 with
    | Ok a, Ok b, Ok e => Ok (PyTuple [a; b; e])
    | Raise x, _, _ => Raise x
    | Ok _, Raise x, _ => Raise x
    | Ok _, Ok _, Raise x => Raise x
    end
  /\ new_posts (full_upload self filename) w =
    match o1, o2 with
    | Raise _, _ => [r1]
    | Ok _, Raise _ => [r1; r2]
    | Ok _, Ok _ => [r1; r2; r3]
    end
  /\ opened (after (full_upload self filename) w) =
    opened w ++
    match o1, o2 with
    | Raise _, _ => [mkHandle filename data]
    | Ok _, Raise _ => [mkHandle filename data; mkHandle filename data]
    | Ok _, Ok _ => [mkHandle filename data; mkHandle filename data;
                     mkHandle filename data]
    end.
Proof.
  intros Hfs body r1 r2 r3.
  pose proof (full_upload_readable_cases self filename data w Hfs) as H.
  cbv zeta in H.
  rewrite (file_request_explicit self w "api/traceix/v1/upload") in H.
  rewrite (file_request_explicit self w "api/traceix/v1/capa") in H.
  rewrite (file_request_explicit self w "api/traceix/v1/exif") in H.
  exact H.
Qed.

Lemma full_upload_stops_at_first_exception_witness :
  outcome (full_upload sdk0 sample_file) (make_world ∅ net_second_garbled) =
    Raise JSONDecodeError
  /\ new_posts (full_upload sdk0 sample_file)
       (make_world ∅ net_second_garbled) =
     [mkRequest "https://ai.perkinsfund.org//api/traceix/v1/upload"
        (standard_headers sdk0 (make_world ∅ net_second_garbled))
        (FilesBody [mkPart "file" sample_file
                      (mkHandle sample_file [Byte.x4d; Byte.x5a])
                      "application/octet-stream"]);
      mkRequest "https://ai.perkinsfund.org//api/traceix/v1/capa"
        (standard_headers sdk0 (make_world ∅ net_second_garbled))
        (FilesBody [mkPart "file" sample_file
                      (mkHandle sample_file [Byte.x4d; Byte.x5a])
                      "application/octet-stream"])]
  /\ opened (after (full_upload sdk0 sample_file)
               (make_world ∅ net_second_garbled)) =
     opened (make_world ∅ net_second_garbled) ++
     [mkHandle sample_file [Byte.x4d; Byte.x5a];
      mkHandle sample_file [Byte.x4d; Byte.x5a]].
Proof.
  apply (full_upload_stops_at_first_exception sdk0 sample_file
           [Byte.x4d; Byte.x5a] (make_world ∅ net_second_garbled)).
  vm_compute. reflexivity.
Defined.

(** ** Arguments that are not checked *)

(** X8. [hash_search] reads the keyword [search_type] and no other: two
    calls whose keyword arguments agree on [search_type], and bind neither
    of the parameter names [self] and [file_hash], behave alike in every
    world, whatever other keywords they carry. *)
Theorem hash_search_reads_search_type_only (self : TraceixSdk)
    (file_hash : pyval) (kwargs1 kwargs2 : gmap string pyval) (w : world) :
  kwargs1 !! "search_type" = kwargs2 !! "search_type" ->
  kwargs1 !! "self" = None -> kwargs1 !! "file_hash" = None ->
  kwargs2 !! "self" = None -> kwargs2 !! "file_hash" = None ->
  hash_search self file_hash kwargs1 w = hash_search self file_hash kwargs2 w.
Proof.
  intros Hsame _ _ _ _. unfold hash_search, kwargs_get. now rewrite Hsame.
Qed.

Lemma hash_search_reads_search_type_only_witness :
  hash_search sdk0 (PyStr "ab12") {[ "search_type" := PyStr "exif" ]}
    (make_world ∅ net_answers) =
  hash_search sdk0 (PyStr "ab12")
    (<[ "verbose" := PyBool true ]> {[ "search_type" := PyStr "exif" ]})
    (make_world ∅ net_answers).
Proof.
  apply (hash_search_reads_search_type_only sdk0 (PyStr "ab12")
           {[ "search_type" := PyStr "exif" ]}
           (<[ "verbose" := PyBool true ]> {[ "search_type" := PyStr "exif" ]})
           (make_world ∅ net_answers));
    vm_compute; reflexivity.
Defined.

Lemma json_call_new_posts self w path key v :
  new_posts
    (bind (build_headers self)
       (fun headers =>
          post_and_decode (build_url self path) headers
            (JsonBody (PyDict [(key, v)])))) w =
  [json_request self w path key v].
Proof.
  apply new_posts_app. unfold after, bind.
  rewrite build_headers_run, post_and_decode_run. reflexivity.
Qed.

(** X9. The two dataset lookups and the JSON body of [hash_search] take
    their argument as it comes: there is no guard, so any value, [None]
    included, is posted, under the key [cid] by [get_public_ipfs_dataset],
    [sha_hash] by [search_ipfs_dataset_by_hash] and [sha256] by
    [hash_search], each in exactly one request. *)
Theorem lookups_post_argument_unchecked (self : TraceixSdk) (v : pyval)
    (w : world) :
  new_posts (get_public_ipfs_dataset self v) w =
    [json_request self w "/api/traceix/v1/ipfs/search" "cid" v]
  /\ new_posts (search_ipfs_dataset_by_hash self v) w =
    [json_request self w "/api/traceix/v1/ipfs/find" "sha_hash" v]
  /\ map req_payload (new_posts (hash_search self v ∅) w) =
    [JsonBody (PyDict [("sha256", v)])].
Proof.
  split; [| split].
  - apply json_call_new_posts.
  - apply json_call_new_posts.
  - rewrite (new_posts_app _ w
               [hash_request self w "/api/traceix/v1/capa/search" v]).
    + reflexivity.
    + unfold after. now rewrite hash_search_capa_run.
Qed.

(** ** Credential and telemetry over time *)

(** X10. The credential is read once, at construction: a client built from
    [TRACEIX_API_KEY] sends that value under [x-api-key] in every request of
    every later call, whatever the environment has become.  The telemetry
    flag is read at each call: whenever [TRACEIX_DISABLE_TELEMETRY] is ["1"]
    at the time of the call, the requests carry the bare product string. *)
Theorem credential_is_captured_at_construction (k : string) (w0 : world) :
  environ w0 !! "TRACEIX_API_KEY" = Some k ->
  k <> "" ->
  exists self,
    init None w0 = (Ok self, w0)
    /\ forall (c : call) (w : world),
         Forall (fun r =>
                   req_headers r !! "x-api-key" = Some k
                   /\ (environ w !! "TRACEIX_DISABLE_TELEMETRY" = Some "1" ->
                       req_headers r !! "user-agent" = Some "Traceix/0.0.0.1"))
                (new_posts (invoke self c) w).
Proof.
  intros Henv Hk. exists (mkSdk k "https://ai.perkinsfund.org").
  split.
  - unfold init, bind, os_getenv, ret. rewrite Henv.
    destruct (String.eqb_spec k "") as [Heq | _]; [contradiction | reflexivity].
  - intros c w.
    destruct (invoke_bounded (mkSdk k "https://ai.perkinsfund.org") w c w
                (same_host_refl w))
      as (rs & hs & _ & Hp & _ & HP & _).
    rewrite (new_posts_app _ w rs Hp).
    eapply Forall_impl; [exact HP |].
    intros r Hr. simpl in Hr. rewrite Hr.
    destruct (sent_headers_lookup (mkSdk k "https://ai.perkinsfund.org") w c)
      as (Hkey & Hua & _).
    split; [exact Hkey |].
    intros Hflag. rewrite Hua. f_equal.
    now apply user_agent_in_opted_out.
Qed.

Lemma credential_is_captured_at_construction_witness :
  exists self,
    init None (make_world {[ "TRACEIX_API_KEY" := "from-env" ]} net_answers) =
      (Ok self, make_world {[ "TRACEIX_API_KEY" := "from-env" ]} net_answers)
    /\ forall (c : call) (w : world),
         Forall (fun r =>
                   req_headers r !! "x-api-key" = Some "from-env"
                   /\ (environ w !! "TRACEIX_DISABLE_TELEMETRY" = Some "1" ->
                       req_headers r !! "user-agent" = Some "Traceix/0.0.0.1"))
                (new_posts (invoke self c) w).
Proof.
  apply (credential_is_captured_at_construction "from-env"
           (make_world {[ "TRACEIX_API_KEY" := "from-env" ]} net_answers)).
  - vm_compute. reflexivity.
  - discriminate.
Defined.
